(** * The deny stage of the flow engine: [DenyStageView.dispatch]

    A shallow embedding of [authentik/stages/deny/stage.py].  The module
    holds one class with one method; everything that method talks to (the
    policy evaluator, the logger, the flow executor) lives in other modules
    and is taken here as a record of collaborators acting on an abstract
    world.  The method itself is embedded statement by statement in a small
    state-and-exception monad whose state carries the view object, the world
    of the collaborators and the trace of the calls that were made. *)

From Stdlib Require Import String Ascii List.
From stdpp Require Import base option list strings gmap.

Open Scope string_scope.
Open Scope list_scope.

(** ** Python values and exceptions *)

(** An exception instance: the method resolution order of its class (the
    class itself first) and its message.  Classes are named by the name they
    are known under; [isinstance] walks the resolution order, as the
    interpreter does for an [except] clause. *)
Record exn := Exn { exn_mro : list string; exn_msg : string }.

Definition isinstance (e : exn) (cls : string) : bool :=
  bool_decide (cls ∈ exn_mro e).

(** The objects a module-level name can be bound to, as far as the method
    can tell them apart: it formats the object into an f-string and hands
    it to the logger.  For an object that is not one of the plain constants,
    [fmt] is what [format(obj, '')] does: a text, or an exception. *)
Inductive pyval :=
| VNone
| VBool (b : bool)
| VStr (s : string)
| VObject (name : string) (fmt : exn + string).

(** [f'{v}'] *)
Definition format_value (v : pyval) : exn + string :=
  match v with
  | VNone => inr "None"
  | VBool true => inr "True"
  | VBool false => inr "False"
  | VStr s => inr s
  | VObject _ f => f
  end.

(** The double quote, as a one-character string. *)
Definition dq : string := String "034"%char EmptyString.

(** ** Name resolution *)

(** The class the handler of [dispatch] names.  The names that the import
    statements of the module bind ([PolicyEvaluator], [PolicyException])
    stand for the objects they import. *)
Definition PolicyException : string :=
  "authentik.policies.exceptions.PolicyException".

Definition NameError (name : string) : exn :=
  {| exn_mro := ["NameError"; "Exception"; "BaseException"; "object"];
     exn_msg := "name '" +:+ name +:+ "' is not defined" |}.

(** A name that is not assigned in the function body is looked up in the
    module's globals and then in the builtins. *)
Definition load_global (globals builtins : gmap string pyval) (name : string)
  : exn + pyval :=
  match globals !! name with
  | Some v => inr v
  | None =>
      match builtins !! name with
      | Some v => inr v
      | None => inl (NameError name)
      end
  end.

(** The names the body of [dispatch] assigns (its parameters, its two
    assignments and the handler's target): every other name it mentions is
    a global. *)
Definition dispatch_locals : list string :=
  ["self"; "request"; "evaluator"; "template"; "exc"].

(** The names the module binds by the time [dispatch] can be called: the
    ones the import machinery sets, the five imported names and the class
    the module defines. *)
Definition module_names : gset string :=
  list_to_set
    ["__name__"; "__doc__"; "__package__"; "__loader__"; "__spec__";
     "__file__"; "__cached__"; "__builtins__";
     "HttpRequest"; "HttpResponse"; "StageView"; "PolicyException";
     "PolicyEvaluator"; "DenyStageView"].

(** The names of the [builtins] module of the interpreter (CPython 3.13,
    with the names that [site] adds). *)
Definition builtin_names : gset string :=
  list_to_set
    ["ArithmeticError"; "AssertionError"; "AttributeError"; "BaseException";
     "BaseExceptionGroup"; "BlockingIOError"; "BrokenPipeError"; "BufferError";
     "BytesWarning"; "ChildProcessError"; "ConnectionAbortedError";
     "ConnectionError"; "ConnectionRefusedError"; "ConnectionResetError";
     "DeprecationWarning"; "EOFError"; "Ellipsis"; "EncodingWarning";
     "EnvironmentError"; "Exception"; "ExceptionGroup"; "False";
     "FileExistsError"; "FileNotFoundError"; "FloatingPointError";
     "FutureWarning"; "GeneratorExit"; "IOError"; "ImportError";
     "ImportWarning"; "IndentationError"; "IndexError"; "InterruptedError";
     "IsADirectoryError"; "KeyError"; "KeyboardInterrupt"; "LookupError";
     "MemoryError"; "ModuleNotFoundError"; "NameError"; "None";
     "NotADirectoryError"; "NotImplemented"; "NotImplementedError"; "OSError";
     "OverflowError"; "PendingDeprecationWarning"; "PermissionError";
     "ProcessLookupError"; "PythonFinalizationError"; "RecursionError";
     "ReferenceError"; "ResourceWarning"; "RuntimeError"; "RuntimeWarning";
     "StopAsyncIteration"; "StopIteration"; "SyntaxError"; "SyntaxWarning";
     "SystemError"; "SystemExit"; "TabError"; "TimeoutError"; "True";
     "TypeError"; "UnboundLocalError"; "UnicodeDecodeError";
     "UnicodeEncodeError"; "UnicodeError"; "UnicodeTranslateError";
     "UnicodeWarning"; "UserWarning"; "ValueError"; "Warning";
     "ZeroDivisionError"; "__build_class__"; "__debug__"; "__doc__";
     "__import__"; "__loader__"; "__name__"; "__package__"; "__spec__";
     "abs"; "aiter"; "all"; "anext"; "any"; "ascii"; "bin"; "bool";
     "breakpoint"; "bytearray"; "bytes"; "callable"; "chr"; "classmethod";
     "compile"; "complex"; "copyright"; "credits"; "delattr"; "dict"; "dir";
     "divmod"; "enumerate"; "eval"; "exec"; "exit"; "filter"; "float";
     "format"; "frozenset"; "getattr"; "globals"; "hasattr"; "hash"; "help";
     "hex"; "id"; "input"; "int"; "isinstance"; "issubclass"; "iter"; "len";
     "license"; "list"; "locals"; "map"; "max"; "memoryview"; "min"; "next";
     "object"; "oct"; "open"; "ord"; "pow"; "print"; "property"; "quit";
     "range"; "repr"; "reversed"; "round"; "set"; "setattr"; "slice";
     "sorted"; "staticmethod"; "str"; "sum"; "super"; "tuple"; "type";
     "vars"; "zip"].

(** ** The expression template *)

(** [f'ak_message("{message}");return False'], after the replacement field
    has been formatted to [text]. *)
Definition deny_template (text : string) : string :=
  "ak_message(" +:+ dq +:+ text +:+ dq +:+ ");return False".

(** [f'Failed to evaluate "{template}"'] *)
Definition failure_text (template : string) : string :=
  "Failed to evaluate " +:+ dq +:+ template +:+ dq.

(** ** The view, its collaborators and the monad *)

Section Dispatch.

Context {World Evaluator Logger Executor HttpRequest HttpResponse : Type}.

(** The two attributes of the view object that [dispatch] reads; the base
    class [StageView] sets them. *)
Record StageView := { logger : Logger; executor : Executor }.

(** The calls that leave the method. *)
Inductive event :=
| EvPolicyEvaluator (policy_name : string)
| EvEvaluate (ev : Evaluator) (source : string)
| EvWarning (lg : Logger) (msg : pyval) (exc : option exn)
| EvStageInvalid (ex : Executor).

(** What the other modules do.  The evaluator's constructor and the logger
    return; [evaluate] and [stage_invalid] return or raise. *)
Record collaborators := {
  new_PolicyEvaluator : string → World → World * Evaluator;
  evaluate : Evaluator → string → World → World * (exn + pyval);
  warning : Logger → pyval → option exn → World → World;
  stage_invalid : Executor → World → World * (exn + HttpResponse) }.

(** The view object is part of the state: a method can rebind the
    attributes of [self]. *)
Record state := { view : StageView; world : World; trace : list event }.

Definition M (A : Type) : Type := state → state * (exn + A).

#[global] Instance M_ret : MRet M := λ A x st, (st, inr x).

#[global] Instance M_bind : MBind M := λ A B f m st,
  match m st with
  | (st', inr x) => f x st'
  | (st', inl e) => (st', inl e)
  end.

(** A computation of the interpreter that touches no state. *)
Definition lift {A} (r : exn + A) : M A := λ st, (st, r).

Definition get_self : M StageView := λ st, (st, inr (view st)).

(** What an assignment to an attribute of [self] would be. *)
Definition set_self (v : StageView) : M unit := λ st,
  ({| view := v; world := world st; trace := trace st |}, inr tt).

(** An outside call: the event is recorded, the world moves on. *)
Definition call {A} (e : event) (f : World → World * (exn + A)) : M A :=
  λ st,
  let '(w, r) := f (world st) in
  ({| view := view st; world := w; trace := trace st ++ [e] |}, r).

(** [try: body] / [except cls as exc: handler exc] *)
Definition try_except {A} (body : M A) (cls : string) (handler : exn → M A)
  : M A := λ st,
  match body st with
  | (st', inl e) => if isinstance e cls then handler e st' else (st', inl e)
  | (st', inr x) => (st', inr x)
  end.

Variable c : collaborators.
Variables globals builtins : gmap string pyval.

Definition call_PolicyEvaluator (policy_name : string) : M Evaluator :=
  call (EvPolicyEvaluator policy_name)
    (λ w, let '(w', ev) := new_PolicyEvaluator c policy_name w in
          (w', inr ev)).

Definition call_evaluate (ev : Evaluator) (source : string) : M pyval :=
  call (EvEvaluate ev source) (evaluate c ev source).

Definition call_warning (lg : Logger) (msg : pyval) (exc : option exn)
  : M unit :=
  call (EvWarning lg msg exc) (λ w, (warning c lg msg exc w, inr tt)).

Definition call_stage_invalid (ex : Executor) : M HttpResponse :=
  call (EvStageInvalid ex) (stage_invalid c ex).

(** [DenyStageView.dispatch], line by line. *)
Definition dispatch (request : HttpRequest) : M HttpResponse :=
  evaluator ← call_PolicyEvaluator "deny";
  message ← lift (load_global globals builtins "message");
  text ← lift (format_value message);
  let template := deny_template text in
  try_except
    (call_evaluate evaluator template;; mret tt)
    PolicyException
    (λ exc,
       self ← get_self;
       call_warning (logger self) (VStr (failure_text template)) (Some exc));;
  self ← get_self;
  message ← lift (load_global globals builtins "message");
  call_warning (logger self) message None;;
  self ← get_self;
  call_stage_invalid (executor self).

(** Line 15 raises [e]: the name does not resolve, or the object it
    resolves to cannot be formatted. *)
Definition template_fails (e : exn) : Prop :=
  load_global globals builtins "message" = inl e ∨
  ∃ m, load_global globals builtins "message" = inr m ∧
       format_value m = inl e.

(** The same collaborators, with [f] applied to whatever [evaluate]
    returns. *)
Definition map_evaluate_value (f : pyval → pyval) : collaborators :=
  {| new_PolicyEvaluator := new_PolicyEvaluator c;
     evaluate := λ ev src w,
       match evaluate c ev src w with
       | (w', inr v) => (w', inr (f v))
       | (w', inl e) => (w', inl e)
       end;
     warning := warning c;
     stage_invalid := stage_invalid c |}.

(** The steps of the method proper, as opposed to its log lines. *)
Definition is_step (e : event) : bool :=
  match e with
  | EvWarning _ _ _ => false
  | _ => true
  end.

Definition is_warning (e : event) : bool := negb (is_step e).

Definition is_stage_invalid (e : event) : bool :=
  match e with
  | EvStageInvalid _ => true
  | _ => false
  end.

Definition is_construction (e : event) : bool :=
  match e with
  | EvPolicyEvaluator _ => true
  | _ => false
  end.

End Dispatch.

Arguments StageView : clear implicits.
Arguments event : clear implicits.
Arguments collaborators : clear implicits.
Arguments state : clear implicits.

(** ** The lexical structure of an expression *)

(** The scanner follows the source text the way the lexer of the expression
    language does for a one-line snippet: a quote opens a string literal
    that runs to the next unescaped quote of the same kind, a backslash
    inside a literal takes the next character with it, and a hash outside a
    literal starts a comment that runs to the end of the line. *)
Inductive lex_state :=
| InCode
| InString (quote : ascii)
| InEscape (quote : ascii)
| InComment.

Definition backslash : ascii := "092"%char.
Definition double_quote : ascii := "034"%char.
Definition single_quote : ascii := "039"%char.
Definition hash : ascii := "035"%char.
Definition newline : ascii := "010"%char.

(** The skeleton of a snippet: its text with the contents of every string
    literal and comment taken out.  Two snippets with the same skeleton
    have the same statements, calls and operators, and differ only in the
    data their literals carry. *)
Fixpoint skeleton_from (q : lex_state) (s : string) : string :=
  match s with
  | EmptyString => EmptyString
  | String a rest =>
      match q with
      | InCode =>
          if Ascii.eqb a double_quote || Ascii.eqb a single_quote
          then String a (skeleton_from (InString a) rest)
          else if Ascii.eqb a hash then skeleton_from InComment rest
          else String a (skeleton_from InCode rest)
      | InString quote =>
          if Ascii.eqb a quote then String a (skeleton_from InCode rest)
          else if Ascii.eqb a backslash then skeleton_from (InEscape quote) rest
          else skeleton_from (InString quote) rest
      | InEscape quote => skeleton_from (InString quote) rest
      | InComment =>
          if Ascii.eqb a newline then String a (skeleton_from InCode rest)
          else skeleton_from InComment rest
      end
  end.

Definition skeleton (s : string) : string := skeleton_from InCode s.

(** A text that stays inside a double-quoted literal. *)
Fixpoint plain_text (s : string) : bool :=
  match s with
  | EmptyString => true
  | String a rest =>
      negb (Ascii.eqb a double_quote) && negb (Ascii.eqb a backslash)
      && plain_text rest
  end.

(** A text that a double-quoted literal on one line can hold as it is: no
    double quote, no backslash, no line end and no null character. *)
Fixpoint literal_text (s : string) : bool :=
  match s with
  | EmptyString => true
  | String a rest =>
      negb (Ascii.eqb a double_quote) && negb (Ascii.eqb a backslash)
      && negb (Ascii.eqb a newline) && negb (Ascii.eqb a "013"%char)
      && negb (Ascii.eqb a "000"%char) && literal_text rest
  end.

(** ** Sample collaborators *)

Module Sample.

(** A world that counts the lines its logger received. *)
Definition collab (outcome : exn + pyval)
  : collaborators nat string unit unit string :=
  {| new_PolicyEvaluator := λ name w, (w, name);
     evaluate := λ _ _ w, (w, outcome);
     warning := λ _ _ _ w, S w;
     stage_invalid := λ _ w, (w, inr "stage_invalid") |}.

Definition self : StageView unit unit := {| logger := tt; executor := tt |}.

Definition start : state nat string unit unit :=
  {| view := self; world := 0; trace := [] |}.

(** The same view in the same world, after an earlier call. *)
Definition later : state nat string unit unit :=
  {| view := self; world := 0; trace := [EvPolicyEvaluator "other"] |}.

(** The names the module binds, with placeholders for the objects. *)
Definition module_globals : gmap string pyval :=
  gset_to_gmap VNone module_names.

Definition python_builtins : gmap string pyval :=
  gset_to_gmap VNone builtin_names.

(** The same module with a [message] put into its namespace. *)
Definition globals_with_message (m : pyval) : gmap string pyval :=
  <["message" := m]> module_globals.

Definition exception (mro : list string) (msg : string) : exn :=
  {| exn_mro := mro ++ ["Exception"; "BaseException"; "object"];
     exn_msg := msg |}.

Definition policy_exception : exn := exception [PolicyException] "denied".

Definition zero_division : exn :=
  exception ["ZeroDivisionError"; "ArithmeticError"] "division by zero".

Definition value_error : exn := exception ["ValueError"] "bad value".

Definition key_error : exn :=
  exception ["KeyError"; "LookupError"] "'user'".

(** The message of the sample runs. *)
Definition denied : pyval := VStr "Access denied".

(** A call of [dispatch] on the sample view, with a [message] in the
    namespace and the given outcome of the evaluation. *)
Definition run_with (outcome : exn + pyval) (m : pyval)
  : state nat string unit unit * (exn + string) :=
  dispatch (collab outcome) (globals_with_message m) python_builtins
    "GET /flow" start.

(** A message that closes the literal it is put into. *)
Definition payload : string :=
  "x" +:+ dq +:+ ");ak_message(" +:+ dq +:+ "y".

Definition type_error : exn := exception ["TypeError"] "not callable".

(** An executor whose [stage_invalid] raises. *)
Definition collab_executor_raises (outcome : exn + pyval) (e : exn)
  : collaborators nat string unit unit string :=
  {| new_PolicyEvaluator := λ name w, (w, name);
     evaluate := λ _ _ w, (w, outcome);
     warning := λ _ _ _ w, S w;
     stage_invalid := λ _ w, (w, inl e) |}.

End Sample.

(** ** The events of one call *)

Section Events.

Context {World Evaluator Logger Executor HttpRequest HttpResponse : Type}.

Definition is_evaluate (e : event Evaluator Logger Executor) : bool :=
  match e with
  | EvEvaluate _ _ => true
  | _ => false
  end.

(** What one call of [dispatch] adds to the trace. *)
Definition events_of
    (c : collaborators World Evaluator Logger Executor HttpResponse)
    (globals builtins : gmap string pyval) (request : HttpRequest)
    (st : state World Evaluator Logger Executor)
  : list (event Evaluator Logger Executor) :=
  drop (length (trace st)) (trace (dispatch c globals builtins request st).1).

End Events.

(** ** The evaluator, as the specification describes it *)

(** Modelled from the spec: the failure classes of the policy evaluator,
    whose code is not part of the source (the taxonomy of section 7:
    CompileError, ReferenceError, RuntimeError, BudgetExceeded). *)
Inductive failure_class :=
| CompileError
| ReferenceError
| RuntimeError
| BudgetExceeded.

(** Modelled from the spec: the result of an evaluation (section 3), a
    success carrying the value the expression produced, or a failure
    carrying a classified cause. *)
Inductive EvaluationResult :=
| Success (v : pyval)
| Failure (cls : failure_class) (cause : string).

(** Modelled from the spec: what running an expression ends in, a value or
    one of the failure modes of section 4.1 (compilation or syntax failure,
    reference to an unbound variable, runtime exception raised by the
    expression itself, budget exceeded). *)
Inductive execution :=
| Produces (v : pyval)
| DoesNotCompile (cause : string)
| RefersToUnbound (cause : string)
| RaisesAtRuntime (cause : string)
| ExceedsBudget (cause : string).

(** Modelled from the spec: each failure mode is a distinct classified
    error (section 4.1). *)
Definition classify (x : execution) : EvaluationResult :=
  match x with
  | Produces v => Success v
  | DoesNotCompile cause => Failure CompileError cause
  | RefersToUnbound cause => Failure ReferenceError cause
  | RaisesAtRuntime cause => Failure RuntimeError cause
  | ExceedsBudget cause => Failure BudgetExceeded cause
  end.

Definition failure_class_name (cls : failure_class) : string :=
  match cls with
  | CompileError => "CompileError"
  | ReferenceError => "ReferenceError"
  | RuntimeError => "RuntimeError"
  | BudgetExceeded => "BudgetExceeded"
  end.

(** Modelled from the spec: how a failure reaches the caller of [evaluate].
    Section 4.1 has every failure caught at the call site, logged with the
    expression text and its cause; the call site catches
    [PolicyException], so a failure arrives as an instance of
    [PolicyException] that carries its class and its cause. *)
Definition failure_exception (cls : failure_class) (cause : string) : exn :=
  {| exn_mro := [PolicyException; "Exception"; "BaseException"; "object"];
     exn_msg := failure_class_name cls +:+ ": " +:+ cause |}.

(** Modelled from the spec: on success the produced value is returned
    (section 4.1, Result). *)
Definition deliver (r : EvaluationResult) : exn + pyval :=
  match r with
  | Success v => inr v
  | Failure cls cause => inl (failure_exception cls cause)
  end.

Section SpecEvaluator.

Context {World Evaluator Logger Executor HttpResponse : Type}.

(** Modelled from the spec: [evaluate] of the evaluator, which executes the
    expression, classifies what it ended in and reports the result; [run]
    is the execution of an expression, with the effects of its helper
    calls on the world. *)
Definition spec_evaluate (run : string → World → World * execution)
    (ev : Evaluator) (source : string) (w : World)
  : World * (exn + pyval) :=
  let '(w', x) := run source w in (w', deliver (classify x)).

(** The collaborators of [c], with the evaluator of the specification. *)
Definition with_spec_evaluator
    (c : collaborators World Evaluator Logger Executor HttpResponse)
    (run : string → World → World * execution)
  : collaborators World Evaluator Logger Executor HttpResponse :=
  {| new_PolicyEvaluator := new_PolicyEvaluator c;
     evaluate := spec_evaluate run;
     warning := warning c;
     stage_invalid := stage_invalid c |}.

End SpecEvaluator.

Module SpecSample.

(** An expression whose execution divides by zero. *)
Definition run_raises (source : string) (w : nat) : nat * execution :=
  (w, RaisesAtRuntime "division by zero").

Definition collab : collaborators nat string unit unit string :=
  with_spec_evaluator (Sample.collab (inr VNone)) run_raises.

End SpecSample.

(** * Properties *)

(** ** The scanner *)

Lemma skeleton_from_plain_text (m rest : string) :
  plain_text m = true →
  skeleton_from (InString double_quote) (m +:+ rest)
  = skeleton_from (InString double_quote) rest.
Proof.
  induction m as [|a m IH]; simpl; [done|].
  intros H. apply andb_prop in H as [H Hm]. apply andb_prop in H as [Hq Hb].
  apply negb_true_iff in Hq, Hb. rewrite Hq, Hb. auto.
Qed.

(** A message without a double quote and without a backslash stays inside
    the literal: the template has the skeleton of the template itself. *)
Lemma skeleton_deny_template_plain (m : string) :
  plain_text m = true →
  skeleton (deny_template m) = skeleton (deny_template "").
Proof.
  intros H. unfold skeleton, deny_template, dq. simpl.
  change ("" +:+ m +:+ ?r) with (m +:+ r).
  rewrite skeleton_from_plain_text by done. reflexivity.
Qed.

(** ** The paths through [dispatch] *)

Section Properties.

Context {World Evaluator Logger Executor HttpRequest HttpResponse : Type}.
Variable c : collaborators World Evaluator Logger Executor HttpResponse.
Variables globals builtins : gmap string pyval.

Implicit Types (st : state World Evaluator Logger Executor).
Implicit Types (req : HttpRequest) (e : exn) (m : pyval) (text : string).

Ltac step_dispatch :=
  unfold dispatch, call_PolicyEvaluator, call_evaluate, call_warning,
    call_stage_invalid, try_except, call, lift, get_self,
    mbind, M_bind, mret, M_ret; simpl.

Ltac flatten_trace := rewrite <- ?app_assoc; simpl.

Lemma dispatch_template_fails req st w1 ev e :
  new_PolicyEvaluator c "deny" (world st) = (w1, ev) →
  template_fails globals builtins e →
  dispatch c globals builtins req st
  = ({| view := view st; world := w1;
        trace := trace st ++ [EvPolicyEvaluator "deny"] |}, inl e).
Proof.
  intros Hc [Hl | (m & Hl & Hf)]; step_dispatch; rewrite Hc, Hl; simpl;
    [done | now rewrite Hf].
Qed.

Lemma dispatch_evaluate_returns req st w1 ev m text w2 v w3 r :
  new_PolicyEvaluator c "deny" (world st) = (w1, ev) →
  load_global globals builtins "message" = inr m →
  format_value m = inr text →
  evaluate c ev (deny_template text) w1 = (w2, inr v) →
  stage_invalid c (executor (view st))
    (warning c (logger (view st)) m None w2) = (w3, r) →
  dispatch c globals builtins req st
  = ({| view := view st; world := w3;
        trace := trace st ++
          [EvPolicyEvaluator "deny"; EvEvaluate ev (deny_template text);
           EvWarning (logger (view st)) m None;
           EvStageInvalid (executor (view st))] |}, r).
Proof.
  intros Hc Hl Hf He Hs. step_dispatch.
  rewrite Hc, Hl; simpl. rewrite Hf; simpl. rewrite He; simpl.
  rewrite Hs. now flatten_trace.
Qed.

Lemma dispatch_evaluate_policy_exception req st w1 ev m text w2 e w3 r :
  new_PolicyEvaluator c "deny" (world st) = (w1, ev) →
  load_global globals builtins "message" = inr m →
  format_value m = inr text →
  evaluate c ev (deny_template text) w1 = (w2, inl e) →
  isinstance e PolicyException = true →
  stage_invalid c (executor (view st))
    (warning c (logger (view st)) m None
       (warning c (logger (view st))
          (VStr (failure_text (deny_template text))) (Some e) w2)) = (w3, r) →
  dispatch c globals builtins req st
  = ({| view := view st; world := w3;
        trace := trace st ++
          [EvPolicyEvaluator "deny"; EvEvaluate ev (deny_template text);
           EvWarning (logger (view st))
             (VStr (failure_text (deny_template text))) (Some e);
           EvWarning (logger (view st)) m None;
           EvStageInvalid (executor (view st))] |}, r).
Proof.
  intros Hc Hl Hf He Hi Hs. step_dispatch.
  rewrite Hc, Hl; simpl. rewrite Hf; simpl. rewrite He; simpl.
  rewrite Hi; simpl. rewrite Hs. now flatten_trace.
Qed.

Lemma dispatch_evaluate_other_exception req st w1 ev m text w2 e :
  new_PolicyEvaluator c "deny" (world st) = (w1, ev) →
  load_global globals builtins "message" = inr m →
  format_value m = inr text →
  evaluate c ev (deny_template text) w1 = (w2, inl e) →
  isinstance e PolicyException = false →
  dispatch c globals builtins req st
  = ({| view := view st; world := w2;
        trace := trace st ++
          [EvPolicyEvaluator "deny"; EvEvaluate ev (deny_template text)] |},
     inl e).
Proof.
  intros Hc Hl Hf He Hi. step_dispatch.
  rewrite Hc, Hl; simpl. rewrite Hf; simpl. rewrite He; simpl.
  rewrite Hi. now flatten_trace.
Qed.

(** Every run of [dispatch] takes one of the four paths. *)
Lemma dispatch_cases req st :
  ∃ w1 ev, new_PolicyEvaluator c "deny" (world st) = (w1, ev) ∧
  ((∃ e, template_fails globals builtins e ∧
      dispatch c globals builtins req st
      = ({| view := view st; world := w1;
            trace := trace st ++ [EvPolicyEvaluator "deny"] |}, inl e)) ∨
   (∃ m text w2 e,
      load_global globals builtins "message" = inr m ∧
      format_value m = inr text ∧
      evaluate c ev (deny_template text) w1 = (w2, inl e) ∧
      isinstance e PolicyException = false ∧
      dispatch c globals builtins req st
      = ({| view := view st; world := w2;
            trace := trace st ++
              [EvPolicyEvaluator "deny"; EvEvaluate ev (deny_template text)] |},
         inl e)) ∨
   (∃ m text w2 v w3 r,
      load_global globals builtins "message" = inr m ∧
      format_value m = inr text ∧
      evaluate c ev (deny_template text) w1 = (w2, inr v) ∧
      stage_invalid c (executor (view st))
        (warning c (logger (view st)) m None w2) = (w3, r) ∧
      dispatch c globals builtins req st
      = ({| view := view st; world := w3;
            trace := trace st ++
              [EvPolicyEvaluator "deny"; EvEvaluate ev (deny_template text);
               EvWarning (logger (view st)) m None;
               EvStageInvalid (executor (view st))] |}, r)) ∨
   (∃ m text w2 e w3 r,
      load_global globals builtins "message" = inr m ∧
      format_value m = inr text ∧
      evaluate c ev (deny_template text) w1 = (w2, inl e) ∧
      isinstance e PolicyException = true ∧
      stage_invalid c (executor (view st))
        (warning c (logger (view st)) m None
           (warning c (logger (view st))
              (VStr (failure_text (deny_template text))) (Some e) w2))
      = (w3, r) ∧
      dispatch c globals builtins req st
      = ({| view := view st; world := w3;
            trace := trace st ++
              [EvPolicyEvaluator "deny"; EvEvaluate ev (deny_template text);
               EvWarning (logger (view st))
                 (VStr (failure_text (deny_template text))) (Some e);
               EvWarning (logger (view st)) m None;
               EvStageInvalid (executor (view st))] |}, r))).
Proof.
  destruct (new_PolicyEvaluator c "deny" (world st)) as [w1 ev] eqn:Hc.
  exists w1, ev. split; [done|].
  destruct (load_global globals builtins "message") as [e|m] eqn:Hl.
  { left. exists e. split; [by left|].
    eapply dispatch_template_fails; [done | by left]. }
  destruct (format_value m) as [e|text] eqn:Hf.
  { left. exists e. split; [right; eauto|].
    eapply dispatch_template_fails; [done | right; eauto]. }
  destruct (evaluate c ev (deny_template text) w1) as [w2 [e|v]] eqn:He.
  - destruct (isinstance e PolicyException) eqn:Hi.
    + destruct (stage_invalid c (executor (view st))
        (warning c (logger (view st)) m None
           (warning c (logger (view st))
              (VStr (failure_text (deny_template text))) (Some e) w2)))
        as [w3 r] eqn:Hs.
      do 3 right. exists m, text, w2, e, w3, r.
      repeat (split; [done|]).
      eapply dispatch_evaluate_policy_exception; eauto.
    + right; left. exists m, text, w2, e.
      repeat (split; [done|]).
      eapply dispatch_evaluate_other_exception; eauto.
  - destruct (stage_invalid c (executor (view st))
        (warning c (logger (view st)) m None w2)) as [w3 r] eqn:Hs.
    do 2 right; left. exists m, text, w2, v, w3, r.
    repeat (split; [done|]).
    eapply dispatch_evaluate_returns; eauto.
Qed.

(** ** The claims *)

(** C1, as amended: a call of [dispatch] returns a response exactly when
    the message resolves and formats, the evaluation returns or raises an
    instance of [PolicyException], and [stage_invalid] returns; the
    response is then the one [stage_invalid] produced, that call is the
    last thing the method did, and on the path of the failed evaluation
    the failure was logged first. *)
Theorem dispatch_returns_iff req st st' (resp : HttpResponse) :
  dispatch c globals builtins req st = (st', inr resp)
  ↔ view st' = view st ∧
    ∃ m text w2 o,
      load_global globals builtins "message" = inr m ∧
      format_value m = inr text ∧
      evaluate c (new_PolicyEvaluator c "deny" (world st)).2
        (deny_template text) (new_PolicyEvaluator c "deny" (world st)).1
      = (w2, o) ∧
      match o with
      | inr _ =>
          stage_invalid c (executor (view st))
            (warning c (logger (view st)) m None w2)
          = (world st', inr resp) ∧
          trace st'
          = trace st ++
            [EvPolicyEvaluator "deny";
             EvEvaluate (new_PolicyEvaluator c "deny" (world st)).2
               (deny_template text);
             EvWarning (logger (view st)) m None;
             EvStageInvalid (executor (view st))]
      | inl e =>
          PolicyException ∈ exn_mro e ∧
          stage_invalid c (executor (view st))
            (warning c (logger (view st)) m None
               (warning c (logger (view st))
                  (VStr (failure_text (deny_template text))) (Some e) w2))
          = (world st', inr resp) ∧
          trace st'
          = trace st ++
            [EvPolicyEvaluator "deny";
             EvEvaluate (new_PolicyEvaluator c "deny" (world st)).2
               (deny_template text);
             EvWarning (logger (view st))
               (VStr (failure_text (deny_template text))) (Some e);
             EvWarning (logger (view st)) m None;
             EvStageInvalid (executor (view st))]
      end.
Proof.
  split.
  - intros Hrun.
    destruct (dispatch_cases req st) as (w1 & ev & Hc & Hcases).
    rewrite Hc; simpl.
    destruct Hcases as
      [(e & _ & H) | [(m & text & w2 & e & _ & _ & _ & _ & H)
      | [(m & text & w2 & v & w3 & r & Hl & Hf & He & Hs & H)
      | (m & text & w2 & e & w3 & r & Hl & Hf & He & Hi & Hs & H)]]];
      rewrite H in Hrun; inversion Hrun; subst; simpl.
    + split; [done|]. exists m, text, w2, (inr v). by rewrite Hs.
    + split; [done|]. exists m, text, w2, (inl e).
      repeat (split; [done|]). split; [|by rewrite Hs].
      unfold isinstance in Hi. by apply bool_decide_eq_true in Hi.
  - intros (Hv & m & text & w2 & o & Hl & Hf & He & Ho).
    destruct (new_PolicyEvaluator c "deny" (world st)) as [w1 ev] eqn:Hc.
    destruct st' as [v' w' t']. simpl in *. subst v'.
    step_dispatch. rewrite Hc, Hl; simpl. rewrite Hf; simpl.
    rewrite He; simpl.
    destruct o as [e|v].
    + destruct Ho as (Hi & Hs & ->).
      assert (isinstance e PolicyException = true) as ->
        by (unfold isinstance; by apply bool_decide_eq_true).
      simpl. rewrite Hs. by flatten_trace.
    + destruct Ho as (Hs & ->).
      simpl. rewrite Hs. by flatten_trace.
Qed.

(** C2, as amended: a [PolicyException] (or an instance of a subclass) that
    [evaluate] raises is caught inside [dispatch] and logged as a warning
    that carries the text of the template and the exception itself; what
    [dispatch] then returns or raises is what [stage_invalid] returned or
    raised, and [stage_invalid] is its last call. *)
Theorem policy_exception_is_caught_and_logged req st w1 ev m text w2 e :
  new_PolicyEvaluator c "deny" (world st) = (w1, ev) →
  load_global globals builtins "message" = inr m →
  format_value m = inr text →
  evaluate c ev (deny_template text) w1 = (w2, inl e) →
  isinstance e PolicyException = true →
  ∃ st' r w t,
    dispatch c globals builtins req st = (st', r) ∧
    EvWarning (logger (view st))
      (VStr ("Failed to evaluate " +:+ dq +:+ deny_template text +:+ dq))
      (Some e) ∈ trace st' ∧
    stage_invalid c (executor (view st)) w = (world st', r) ∧
    trace st' = t ++ [EvStageInvalid (executor (view st))].
Proof.
  intros Hc Hl Hf He Hi.
  destruct (stage_invalid c (executor (view st))
    (warning c (logger (view st)) m None
       (warning c (logger (view st))
          (VStr (failure_text (deny_template text))) (Some e) w2)))
    as [w3 r] eqn:Hs.
  eexists _, r, _, (trace st ++ [_; _; _; _]).
  split; [by eapply dispatch_evaluate_policy_exception|]. simpl.
  split; [|split; [exact Hs | by rewrite <- app_assoc]].
  apply elem_of_app. right. do 2 apply list_elem_of_further.
  apply list_elem_of_here.
Qed.

(** C3: the module binds no [message] and neither do the builtins, and
    [dispatch] does not assign it: in every namespace that holds no other
    names than those of the module and of the builtins, whatever the
    objects, every call raises [NameError] for [message] once the evaluator
    is constructed, before [evaluate], the logger or the executor are
    called. *)
Theorem message_is_unbound req st :
  dom globals ⊆ module_names →
  dom builtins ⊆ builtin_names →
  ("message" ∉ dispatch_locals) ∧
  (dispatch c globals builtins req st
   = ({| view := view st;
         world := (new_PolicyEvaluator c "deny" (world st)).1;
         trace := trace st ++ [EvPolicyEvaluator "deny"] |},
      inl (NameError "message"))).
Proof.
  intros Hg Hb. split.
  { apply (bool_decide_unpack _). by vm_compute. }
  assert (globals !! "message" = None) as Hgm.
  { apply not_elem_of_dom. intros Hin%Hg. revert Hin. unfold module_names.
    rewrite elem_of_list_to_set. apply (bool_decide_unpack _). by vm_compute. }
  assert (builtins !! "message" = None) as Hbm.
  { apply not_elem_of_dom. intros Hin%Hb. revert Hin. unfold builtin_names.
    rewrite elem_of_list_to_set. apply (bool_decide_unpack _). by vm_compute. }
  destruct (new_PolicyEvaluator c "deny" (world st)) as [w1 ev] eqn:Hc.
  eapply dispatch_template_fails; [done|].
  left. unfold load_global. by rewrite Hgm, Hbm.
Qed.

(** Whatever is done to the value of [evaluate] before [dispatch] sees it,
    [dispatch] does the same. *)
Lemma dispatch_map_evaluate_value (f : pyval → pyval) req st :
  dispatch (map_evaluate_value c f) globals builtins req st
  = dispatch c globals builtins req st.
Proof.
  step_dispatch.
  destruct (new_PolicyEvaluator c "deny" (world st)) as [w1 ev]; simpl.
  destruct (load_global globals builtins "message") as [e|m]; simpl; [done|].
  destruct (format_value m) as [e|text]; simpl; [done|].
  destruct (evaluate c ev (deny_template text) w1) as [w2 [e|v]]; simpl; done.
Qed.

(** C5, as amended: the value [evaluate] returns is dropped.  When the
    evaluation returns, [dispatch] logs the message, calls [stage_invalid]
    and ends in what that call gave, and none of this depends on the
    returned value: the stage is marked invalid for every value, and for
    any other value in its place. *)
Theorem dispatch_ignores_evaluate_value
    (f : pyval → pyval) req st w1 ev m text w2 (v : pyval) :
  new_PolicyEvaluator c "deny" (world st) = (w1, ev) →
  load_global globals builtins "message" = inr m →
  format_value m = inr text →
  evaluate c ev (deny_template text) w1 = (w2, inr v) →
  dispatch (map_evaluate_value c f) globals builtins req st
  = dispatch c globals builtins req st ∧
  dispatch c globals builtins req st
  = ({| view := view st;
        world := (stage_invalid c (executor (view st))
                    (warning c (logger (view st)) m None w2)).1;
        trace := trace st ++
          [EvPolicyEvaluator "deny"; EvEvaluate ev (deny_template text);
           EvWarning (logger (view st)) m None;
           EvStageInvalid (executor (view st))] |},
     (stage_invalid c (executor (view st))
        (warning c (logger (view st)) m None w2)).2).
Proof.
  intros Hc Hl Hf He. split; [apply dispatch_map_evaluate_value|].
  step_dispatch. rewrite Hc, Hl; simpl. rewrite Hf; simpl.
  rewrite He; simpl.
  destruct (stage_invalid c (executor (view st))
    (warning c (logger (view st)) m None w2)) as [w3 r].
  by flatten_trace.
Qed.

(** C6, as amended: when [message] resolves and formats, and [evaluate]
    returns or raises a [PolicyException], the steps of [dispatch] are, in
    this order and once each: the construction of the evaluator named
    deny, the evaluation of the template made from the message, and the
    executor's [stage_invalid]. *)
Theorem dispatch_steps_in_order req st w1 ev m text w2 (o : exn + pyval) :
  new_PolicyEvaluator c "deny" (world st) = (w1, ev) →
  load_global globals builtins "message" = inr m →
  format_value m = inr text →
  evaluate c ev (deny_template text) w1 = (w2, o) →
  (∀ e, o = inl e → isinstance e PolicyException = true) →
  ∃ t, trace (dispatch c globals builtins req st).1 = trace st ++ t ∧
       List.filter is_step t
       = [EvPolicyEvaluator "deny"; EvEvaluate ev (deny_template text);
          EvStageInvalid (executor (view st))].
Proof.
  intros Hc Hl Hf He Ho. destruct o as [e|v].
  - destruct (stage_invalid c (executor (view st))
      (warning c (logger (view st)) m None
         (warning c (logger (view st))
            (VStr (failure_text (deny_template text))) (Some e) w2)))
      as [w3 r] eqn:Hs.
    erewrite dispatch_evaluate_policy_exception by eauto.
    by eexists.
  - destruct (stage_invalid c (executor (view st))
      (warning c (logger (view st)) m None w2)) as [w3 r] eqn:Hs.
    erewrite dispatch_evaluate_returns by eauto.
    by eexists.
Qed.

(** One call: the view object is the one the call started with, and the
    call's own events start with the construction of an evaluator, which
    is the only one and the one every evaluation of the call uses. *)
Lemma dispatch_frame req st :
  view (dispatch c globals builtins req st).1 = view st ∧
  ∃ t, trace (dispatch c globals builtins req st).1
       = trace st ++ EvPolicyEvaluator "deny" :: t ∧
       List.filter is_construction t = [] ∧
       ∀ ev src, EvEvaluate ev src ∈ t →
         ev = (new_PolicyEvaluator c "deny" (world st)).2 ∧
         ∃ m text, load_global globals builtins "message" = inr m ∧
                   format_value m = inr text ∧ src = deny_template text.
Proof.
  destruct (dispatch_cases req st) as (w1 & ev & Hc & Hcases).
  rewrite Hc; simpl.
  destruct Hcases as
    [(e & _ & H) | [(m & text & w2 & e & Hl & Hf & _ & _ & H)
    | [(m & text & w2 & v & w3 & r & Hl & Hf & _ & _ & H)
    | (m & text & w2 & e & w3 & r & Hl & Hf & _ & _ & _ & H)]]];
    rewrite H; simpl; (split; [done|]); eexists; (split; [done|]);
    (split; [done|]); intros ev' src Hin;
    repeat (apply elem_of_cons in Hin as [Hin|Hin]; [try discriminate|]);
    try (by apply elem_of_nil in Hin);
    inversion Hin; subst; eauto 10.
Qed.

(** C9: the handler takes [PolicyException] only.  An exception raised
    while the template is built, of whatever class, and an exception of
    any other class raised by [evaluate], leave [dispatch] as they are,
    and the call has then logged no warning and has not called
    [stage_invalid]. *)
Theorem only_PolicyException_is_caught req st e :
  (template_fails globals builtins e ∨
   ∃ m text w2,
     load_global globals builtins "message" = inr m ∧
     format_value m = inr text ∧
     evaluate c (new_PolicyEvaluator c "deny" (world st)).2
       (deny_template text) (new_PolicyEvaluator c "deny" (world st)).1
     = (w2, inl e) ∧
     isinstance e PolicyException = false) →
  ∃ st' t,
    dispatch c globals builtins req st = (st', inl e) ∧
    trace st' = trace st ++ t ∧
    List.filter is_warning t = [] ∧
    List.filter is_stage_invalid t = [].
Proof.
  destruct (new_PolicyEvaluator c "deny" (world st)) as [w1 ev] eqn:Hc.
  intros [Hfail | (m & text & w2 & Hl & Hf & He & Hi)].
  - eexists _, _. split; [by eapply dispatch_template_fails|]. done.
  - eexists _, _.
    split; [by eapply dispatch_evaluate_other_exception|]. done.
Qed.

(** The events a call adds do not depend on the events before it. *)
Lemma dispatch_trace_prefix req st (pre : list (event Evaluator Logger Executor)) :
  dispatch c globals builtins req
    {| view := view st; world := world st; trace := pre ++ trace st |}
  = ({| view := view (dispatch c globals builtins req st).1;
        world := world (dispatch c globals builtins req st).1;
        trace := pre ++ trace (dispatch c globals builtins req st).1 |},
     (dispatch c globals builtins req st).2).
Proof.
  step_dispatch.
  destruct (new_PolicyEvaluator c "deny" (world st)) as [w1 ev]; simpl.
  destruct (load_global globals builtins "message") as [e|m]; simpl;
    [by rewrite app_assoc|].
  destruct (format_value m) as [e|text]; simpl; [by rewrite app_assoc|].
  destruct (evaluate c ev (deny_template text) w1) as [w2 [e|v]]; simpl.
  - destruct (isinstance e PolicyException); simpl.
    + destruct (stage_invalid c _ _) as [w3 r]; simpl.
      by rewrite !app_assoc.
    + by rewrite !app_assoc.
  - destruct (stage_invalid c _ _) as [w3 r]; simpl.
    by rewrite !app_assoc.
Qed.


(** C10: [dispatch] does not look at its request.  On the same view and in
    the same world, two calls with any two requests make the same calls
    with the same arguments, in the same order, leave the same world and
    the same view and end in the same way: with the same response, or
    with the same exception. *)
Theorem dispatch_ignores_request req1 req2 st1 st2 :
  view st1 = view st2 →
  world st1 = world st2 →
  ∃ t,
    trace (dispatch c globals builtins req1 st1).1 = trace st1 ++ t ∧
    trace (dispatch c globals builtins req2 st2).1 = trace st2 ++ t ∧
    view (dispatch c globals builtins req1 st1).1
    = view (dispatch c globals builtins req2 st2).1 ∧
    world (dispatch c globals builtins req1 st1).1
    = world (dispatch c globals builtins req2 st2).1 ∧
    (dispatch c globals builtins req1 st1).2
    = (dispatch c globals builtins req2 st2).2.
Proof.
  destruct st1 as [v w t1], st2 as [v' w' t2]; simpl.
  intros <- <-.
  set (st0 := {| view := v; world := w; trace := [] |}
              : state World Evaluator Logger Executor).
  pose proof (dispatch_trace_prefix req1 st0 t1) as H1.
  pose proof (dispatch_trace_prefix req2 st0 t2) as H2.
  simpl in H1, H2. rewrite app_nil_r in H1, H2.
  exists (trace (dispatch c globals builtins req1 st0).1).
  rewrite H1, H2. done.
Qed.

End Properties.

(** ** The evaluator of the specification *)

Section SpecEvaluatorProperties.

Context {World Evaluator Logger Executor HttpRequest HttpResponse : Type}.
Variable c : collaborators World Evaluator Logger Executor HttpResponse.
Variables globals builtins : gmap string pyval.

Implicit Types (st : state World Evaluator Logger Executor).
Implicit Types (req : HttpRequest) (m : pyval) (text : string).


End SpecEvaluatorProperties.

(** ** The claims at sample runs *)

Import Sample.

(** C1 as it stands fails: the evaluation fails with a [TypeError], the
    executor is never called and no response is returned; the stage has
    not ended the flow. *)
Lemma failed_evaluation_leaves_flow_running :
  (run_with (inl type_error) denied).2 = inl type_error ∧
  List.filter is_stage_invalid (trace (run_with (inl type_error) denied).1)
  = [].
Proof. split; by vm_compute. Qed.

(** C1, as amended, at a run in which [evaluate] raises a
    [PolicyException] and the call returns. *)
Lemma dispatch_returns_iff_witness :
  run_with (inl policy_exception) denied
  = ((run_with (inl policy_exception) denied).1, inr "stage_invalid") ∧
  view (run_with (inl policy_exception) denied).1 = view start ∧
  ∃ m text w2 o,
    load_global (globals_with_message denied) python_builtins "message"
    = inr m ∧
    format_value m = inr text ∧
    evaluate (collab (inl policy_exception))
      (new_PolicyEvaluator (collab (inl policy_exception)) "deny"
         (world start)).2
      (deny_template text)
      (new_PolicyEvaluator (collab (inl policy_exception)) "deny"
         (world start)).1
    = (w2, o) ∧
    match o with
    | inr _ =>
        stage_invalid (collab (inl policy_exception)) (executor (view start))
          (warning (collab (inl policy_exception)) (logger (view start))
             m None w2)
        = (world (run_with (inl policy_exception) denied).1,
           inr "stage_invalid") ∧
        trace (run_with (inl policy_exception) denied).1
        = trace start ++
          [EvPolicyEvaluator "deny";
           EvEvaluate
             (new_PolicyEvaluator (collab (inl policy_exception)) "deny"
                (world start)).2
             (deny_template text);
           EvWarning (logger (view start)) m None;
           EvStageInvalid (executor (view start))]
    | inl e =>
        PolicyException ∈ exn_mro e ∧
        stage_invalid (collab (inl policy_exception)) (executor (view start))
          (warning (collab (inl policy_exception)) (logger (view start))
             m None
             (warning (collab (inl policy_exception)) (logger (view start))
                (VStr (failure_text (deny_template text))) (Some e) w2))
        = (world (run_with (inl policy_exception) denied).1,
           inr "stage_invalid") ∧
        trace (run_with (inl policy_exception) denied).1
        = trace start ++
          [EvPolicyEvaluator "deny";
           EvEvaluate
             (new_PolicyEvaluator (collab (inl policy_exception)) "deny"
                (world start)).2
             (deny_template text);
           EvWarning (logger (view start))
             (VStr (failure_text (deny_template text))) (Some e);
           EvWarning (logger (view start)) m None;
           EvStageInvalid (executor (view start))]
    end.
Proof.
  assert (run_with (inl policy_exception) denied
          = ((run_with (inl policy_exception) denied).1,
             inr "stage_invalid")) as Hrun by (by vm_compute).
  split; [exact Hrun|].
  exact (proj1 (dispatch_returns_iff (collab (inl policy_exception))
                  (globals_with_message denied) python_builtins
                  "GET /flow" start
                  (run_with (inl policy_exception) denied).1
                  "stage_invalid") Hrun).
Defined.

(** C2 as it stands fails: a [ValueError] out of [evaluate] is not a
    [PolicyException]; it leaves [dispatch], nothing is logged and the
    executor is not called. *)
Lemma evaluate_failure_escapes_dispatch :
  isinstance value_error PolicyException = false ∧
  run_with (inl value_error) denied
  = ({| view := self; world := 0;
        trace := [EvPolicyEvaluator "deny";
                  EvEvaluate "deny" (deny_template "Access denied")] |},
     inl value_error).
Proof. split; by vm_compute. Qed.

(** C2, as amended, at a run in which [evaluate] raises a
    [PolicyException]. *)
Lemma policy_exception_is_caught_and_logged_witness :
  isinstance policy_exception PolicyException = true ∧
  ∃ st' r w t,
    run_with (inl policy_exception) denied = (st', r) ∧
    EvWarning tt
      (VStr ("Failed to evaluate " +:+ dq +:+ deny_template "Access denied"
             +:+ dq))
      (Some policy_exception) ∈ trace st' ∧
    stage_invalid (collab (inl policy_exception)) tt w = (world st', r) ∧
    trace st' = t ++ [EvStageInvalid tt].
Proof.
  split; [by vm_compute|].
  apply (policy_exception_is_caught_and_logged
           (collab (inl policy_exception)) (globals_with_message denied)
           python_builtins "GET /flow" start
           0 "deny" denied "Access denied" 0 policy_exception);
    by vm_compute.
Defined.

(** C3 at the module as it is written. *)
Lemma message_is_unbound_witness :
  dom module_globals ⊆ module_names ∧
  dom python_builtins ⊆ builtin_names ∧
  dispatch (collab (inr VNone)) module_globals python_builtins
    "GET /flow" start
  = ({| view := self; world := 0; trace := [EvPolicyEvaluator "deny"] |},
     inl (NameError "message")).
Proof.
  assert (dom module_globals ⊆ module_names) as Hg.
  { unfold module_globals. by rewrite dom_gset_to_gmap. }
  assert (dom python_builtins ⊆ builtin_names) as Hb.
  { unfold python_builtins. by rewrite dom_gset_to_gmap. }
  split; [exact Hg|]. split; [exact Hb|].
  apply (message_is_unbound (collab (inr VNone)) module_globals
           python_builtins "GET /flow" start Hg Hb).
Defined.

(** C4 fails on the code: a message with a double quote in it ends the
    literal it was put into, and the rest of the message is part of the
    expression.  The template that [dispatch] hands to the evaluator then
    has two calls of [ak_message] where the template has one. *)
Theorem deny_template_injection :
  format_value (VStr payload) = inr payload ∧
  deny_template payload
  = "ak_message(" +:+ dq +:+ "x" +:+ dq +:+ ");ak_message(" +:+ dq +:+ "y"
    +:+ dq +:+ ");return False" ∧
  trace (run_with (inr VNone) (VStr payload)).1 !! 1
  = Some (EvEvaluate "deny" (deny_template payload)) ∧
  skeleton (deny_template "x")
  = "ak_message(" +:+ dq +:+ dq +:+ ");return False" ∧
  skeleton (deny_template payload)
  = "ak_message(" +:+ dq +:+ dq +:+ ");ak_message(" +:+ dq +:+ dq
    +:+ ");return False" ∧
  skeleton (deny_template payload) ≠ skeleton (deny_template "x").
Proof. repeat split; by vm_compute. Qed.

(** C5 as it stands fails: with an evaluation that returns [True] and one
    that returns [False], [dispatch] does the same and ends in
    [stage_invalid]. *)
Lemma pass_value_still_denies :
  run_with (inr (VBool true)) denied = run_with (inr (VBool false)) denied ∧
  last (trace (run_with (inr (VBool true)) denied).1)
  = Some (EvStageInvalid tt) ∧
  (run_with (inr (VBool true)) denied).2 = inr "stage_invalid".
Proof. repeat split; by vm_compute. Qed.

(** C5, as amended, at an evaluation that returns [True], with [False] put
    in its place. *)
Lemma dispatch_ignores_evaluate_value_witness :
  dispatch (map_evaluate_value (collab (inr (VBool true))) (λ _, VBool false))
    (globals_with_message denied) python_builtins "GET /flow" start
  = run_with (inr (VBool true)) denied ∧
  run_with (inr (VBool true)) denied
  = ({| view := self; world := 1;
        trace :=
          [EvPolicyEvaluator "deny";
           EvEvaluate "deny" (deny_template "Access denied");
           EvWarning tt denied None; EvStageInvalid tt] |},
     inr "stage_invalid").
Proof.
  apply (dispatch_ignores_evaluate_value (collab (inr (VBool true)))
           (globals_with_message denied) python_builtins
           (λ _, VBool false) "GET /flow" start
           0 "deny" denied "Access denied" 0 (VBool true));
    by vm_compute.
Defined.

(** C6 as it stands fails: when [evaluate] raises a [KeyError], the steps
    end with the evaluation and the executor is never called. *)
Lemma steps_end_at_evaluate :
  List.filter is_step (trace (run_with (inl key_error) denied).1)
  = [EvPolicyEvaluator "deny";
     EvEvaluate "deny" (deny_template "Access denied")] ∧
  (run_with (inl key_error) denied).2 = inl key_error.
Proof. split; by vm_compute. Qed.

(** C6, as amended, at a run in which [evaluate] raises a
    [PolicyException]. *)
Lemma dispatch_steps_in_order_witness :
  ∃ t,
    trace (run_with (inl policy_exception) denied).1 = trace start ++ t ∧
    List.filter is_step t
    = [EvPolicyEvaluator "deny";
       EvEvaluate "deny" (deny_template "Access denied");
       EvStageInvalid tt].
Proof.
  apply (dispatch_steps_in_order
           (collab (inl policy_exception)) (globals_with_message denied)
           python_builtins "GET /flow" start
           0 "deny" denied "Access denied" 0 (inl policy_exception));
    try by vm_compute.
  intros e [= <-]. by vm_compute.
Defined.


(** C9 at a run in which [evaluate] raises a [ZeroDivisionError]. *)
Lemma only_PolicyException_is_caught_witness :
  isinstance zero_division PolicyException = false ∧
  ∃ st' t,
    run_with (inl zero_division) denied = (st', inl zero_division) ∧
    trace st' = trace start ++ t ∧
    List.filter is_warning t = [] ∧
    List.filter is_stage_invalid t = [].
Proof.
  split; [by vm_compute|].
  apply (only_PolicyException_is_caught
           (collab (inl zero_division)) (globals_with_message denied)
           python_builtins "GET /flow" start zero_division).
  right. exists denied, "Access denied", 0. repeat split; by vm_compute.
Defined.

(** C10 at two requests, the second call made after other events. *)
Lemma dispatch_ignores_request_witness :
  ∃ t,
    trace (dispatch (collab (inr VNone)) (globals_with_message denied)
             python_builtins "GET /flow" start).1
    = trace start ++ t ∧
    trace (dispatch (collab (inr VNone)) (globals_with_message denied)
             python_builtins "POST /flow" later).1
    = trace later ++ t ∧
    view (dispatch (collab (inr VNone)) (globals_with_message denied)
            python_builtins "GET /flow" start).1
    = view (dispatch (collab (inr VNone)) (globals_with_message denied)
              python_builtins "POST /flow" later).1 ∧
    world (dispatch (collab (inr VNone)) (globals_with_message denied)
             python_builtins "GET /flow" start).1
    = world (dispatch (collab (inr VNone)) (globals_with_message denied)
               python_builtins "POST /flow" later).1 ∧
    (dispatch (collab (inr VNone)) (globals_with_message denied)
       python_builtins "GET /flow" start).2
    = (dispatch (collab (inr VNone)) (globals_with_message denied)
         python_builtins "POST /flow" later).2.
Proof.
  apply (dispatch_ignores_request (collab (inr VNone))
           (globals_with_message denied) python_builtins
           "GET /flow" "POST /flow" start later); reflexivity.
Defined.

(** * Further properties of [dispatch] *)

(** ** The template *)

Lemma append_length (a b : string) :
  String.length (a +:+ b) = String.length a + String.length b.
Proof. induction a as [|x a IH]; simpl; [done | by rewrite IH]. Qed.

Lemma append_assoc (a b d : string) : (a +:+ b) +:+ d = a +:+ (b +:+ d).
Proof.
  induction a as [|x a IH]; [done|].
  change (String x ((a +:+ b) +:+ d) = String x (a +:+ (b +:+ d))).
  by rewrite IH.
Qed.

Lemma append_inj_tail (a b s : string) : a +:+ s = b +:+ s → a = b.
Proof.
  revert b. induction a as [|x a IH]; intros [|y b] H; simpl in H.
  - done.
  - apply (f_equal String.length) in H.
    rewrite !append_length in H. simpl in H. lia.
  - apply (f_equal String.length) in H.
    rewrite !append_length in H. simpl in H. lia.
  - change (String x (a +:+ s) = String y (b +:+ s)) in H.
    injection H as -> H. f_equal. by apply IH.
Qed.

(** X9: the template determines the message text: two texts with the same
    template are the same text. *)
Theorem deny_template_inj (a b : string) :
  deny_template a = deny_template b → a = b.
Proof.
  unfold deny_template, dq. simpl. intros H.
  injection H as H. exact (append_inj_tail a b _ H).
Qed.

Lemma literal_text_plain (m : string) :
  literal_text m = true → plain_text m = true.
Proof.
  induction m as [|a m IH]; simpl; [done|].
  intros H. repeat (apply andb_prop in H as [H ?]).
  rewrite H, IH by done. by rewrite andb_true_r.
Qed.

(** X7: a message text with no double quote, no backslash, no line end
    and no null character in it stays inside the literal: the template
    has one call of [ak_message] on one literal, followed by the
    return. *)
Theorem literal_message_keeps_structure (m : string) :
  literal_text m = true →
  skeleton (deny_template m)
  = "ak_message(" +:+ dq +:+ dq +:+ ");return False".
Proof.
  intros H. by rewrite skeleton_deny_template_plain
    by by apply literal_text_plain.
Qed.

(** X10: a message text that ends in a backslash takes the closing quote
    of the template with it: the literal is never closed and the rest of
    the template, the return included, is inside it. *)
Theorem trailing_backslash_swallows_template (p : string) :
  plain_text p = true →
  skeleton (deny_template (p +:+ String backslash ""))
  = "ak_message(" +:+ dq.
Proof.
  intros H. unfold skeleton, deny_template, dq. simpl.
  change ("" +:+ ?x) with x.
  rewrite append_assoc.
  rewrite skeleton_from_plain_text by done.
  reflexivity.
Qed.

(** ** The events of a call, path by path *)

Section EventProperties.

Context {World Evaluator Logger Executor HttpRequest HttpResponse : Type}.
Variable c : collaborators World Evaluator Logger Executor HttpResponse.
Variables globals builtins : gmap string pyval.

Implicit Types (st : state World Evaluator Logger Executor).
Implicit Types (req : HttpRequest) (e : exn) (m : pyval) (text : string).

(** The evaluation is reached and ends in [o]. *)
Let evaluated st m text (w2 : World) (o : exn + pyval) : Prop :=
  load_global globals builtins "message" = inr m ∧
  format_value m = inr text ∧
  evaluate c (new_PolicyEvaluator c "deny" (world st)).2
    (deny_template text) (new_PolicyEvaluator c "deny" (world st)).1
  = (w2, o).

Lemma events_of_cases req st :
  let ev := (new_PolicyEvaluator c "deny" (world st)).2 in
  let lg := logger (view st) in
  let ex := executor (view st) in
  (∃ e, template_fails globals builtins e ∧
     (dispatch c globals builtins req st).2 = inl e ∧
     events_of c globals builtins req st = [EvPolicyEvaluator "deny"]) ∨
  (∃ m text w2 e,
     evaluated st m text w2 (inl e) ∧
     isinstance e PolicyException = false ∧
     (dispatch c globals builtins req st).2 = inl e ∧
     events_of c globals builtins req st
     = [EvPolicyEvaluator "deny"; EvEvaluate ev (deny_template text)]) ∨
  (∃ m text w2 v,
     evaluated st m text w2 (inr v) ∧
     stage_invalid c ex (warning c lg m None w2)
     = (world (dispatch c globals builtins req st).1,
        (dispatch c globals builtins req st).2) ∧
     events_of c globals builtins req st
     = [EvPolicyEvaluator "deny"; EvEvaluate ev (deny_template text);
        EvWarning lg m None; EvStageInvalid ex]) ∨
  (∃ m text w2 e,
     evaluated st m text w2 (inl e) ∧
     isinstance e PolicyException = true ∧
     stage_invalid c ex
       (warning c lg m None
          (warning c lg (VStr (failure_text (deny_template text)))
             (Some e) w2))
     = (world (dispatch c globals builtins req st).1,
        (dispatch c globals builtins req st).2) ∧
     events_of c globals builtins req st
     = [EvPolicyEvaluator "deny"; EvEvaluate ev (deny_template text);
        EvWarning lg (VStr (failure_text (deny_template text))) (Some e);
        EvWarning lg m None; EvStageInvalid ex]).
Proof.
  intros ev lg ex. subst ev lg ex. unfold evaluated, events_of.
  destruct (dispatch_cases (HttpRequest:=HttpRequest) c globals builtins
              req st) as (w1 & ev & Hc & Hcases).
  rewrite Hc; simpl.
  destruct Hcases as
    [(e & Hf & H) | [(m & text & w2 & e & Hl & Hf & He & Hi & H)
    | [(m & text & w2 & v & w3 & r & Hl & Hf & He & Hs & H)
    | (m & text & w2 & e & w3 & r & Hl & Hf & He & Hi & Hs & H)]]];
    rewrite H; simpl; rewrite drop_app_length.
  - left. eauto.
  - right; left. exists m, text, w2, e. eauto 10.
  - do 2 right; left. exists m, text, w2, v. eauto 10.
  - do 3 right. exists m, text, w2, e. eauto 10.
Qed.

Lemma events_of_trace req st :
  trace (dispatch c globals builtins req st).1
  = trace st ++ events_of c globals builtins req st.
Proof.
  unfold events_of.
  destruct (dispatch_frame (HttpRequest:=HttpRequest) c globals builtins
              req st) as (_ & t & -> & _).
  by rewrite drop_app_length.
Qed.

Ltac on_each_path req st :=
  let H := fresh "Hpath" in
  pose proof (events_of_cases req st) as H; simpl in H;
  destruct H as
    [(?e & ?Hfail & ?Hr & ?Hev)
    | [(?m & ?text & ?w2 & ?e & ?Hrun & ?Hi & ?Hr & ?Hev)
    | [(?m & ?text & ?w2 & ?v & ?Hrun & ?Hs & ?Hev)
    | (?m & ?text & ?w2 & ?e & ?Hrun & ?Hi & ?Hs & ?Hev)]]].

Ltac no_such_event H :=
  repeat (apply elem_of_cons in H as [H|H]; [try discriminate H|]);
  try (by apply elem_of_nil in H).

(** X5: on every path one call of [dispatch] constructs one evaluator,
    evaluates at most once, calls [stage_invalid] at most once and logs at
    most two warnings. *)
Theorem dispatch_call_counts req st :
  let t := events_of c globals builtins req st in
  length (List.filter is_construction t) = 1 ∧
  (length (List.filter is_evaluate t) ≤ 1)%nat ∧
  (length (List.filter is_stage_invalid t) ≤ 1)%nat ∧
  (length (List.filter is_warning t) ≤ 2)%nat.
Proof.
  intros t. subst t.
  on_each_path req st; rewrite Hev; simpl; lia.
Qed.

(** X2: [stage_invalid] is called exactly when the template could be
    built and the evaluation returned or raised a [PolicyException]. *)
Theorem stage_invalid_called_iff req st :
  EvStageInvalid (executor (view st)) ∈ events_of c globals builtins req st
  ↔ ∃ m text w2 o,
      load_global globals builtins "message" = inr m ∧
      format_value m = inr text ∧
      evaluate c (new_PolicyEvaluator c "deny" (world st)).2
        (deny_template text) (new_PolicyEvaluator c "deny" (world st)).1
      = (w2, o) ∧
      (∀ e, o = inl e → isinstance e PolicyException = true).
Proof.
  split.
  - intros Hin. on_each_path req st; rewrite Hev in Hin.
    + no_such_event Hin.
    + no_such_event Hin.
    + destruct Hrun as (Hl & Hf & He).
      exists m, text, w2, (inr v). repeat (split; [done|]). by intros e0.
    + destruct Hrun as (Hl & Hf & He).
      exists m, text, w2, (inl e). repeat (split; [done|]).
      by intros e0 [= <-].
  - intros (m & text & w2 & o & Hl & Hf & He & Ho).
    on_each_path req st; rewrite Hev.
    + destruct Hfail as [Hl' | (m' & Hl' & Hf')]; congruence.
    + destruct Hrun as (Hl' & Hf' & He').
      assert (m0 = m) as -> by congruence.
      assert (text0 = text) as -> by congruence.
      rewrite He in He'. injection He' as -> ->.
      rewrite (Ho e) in Hi by done. done.
    + do 3 apply list_elem_of_further. apply list_elem_of_here.
    + do 4 apply list_elem_of_further. apply list_elem_of_here.
Qed.

(** X3: the handler covers the evaluation only.  When the executor's
    [stage_invalid] raises, a [PolicyException] included, every call of
    [dispatch] that reaches it ends with that exception, and the call of
    [stage_invalid] is the last thing it did. *)
Theorem stage_invalid_exception_propagates req st e :
  (∀ w, (stage_invalid c (executor (view st)) w).2 = inl e) →
  EvStageInvalid (executor (view st))
    ∈ events_of c globals builtins req st →
  (dispatch c globals builtins req st).2 = inl e ∧
  last (events_of c globals builtins req st)
  = Some (EvStageInvalid (executor (view st))).
Proof.
  intros Hraise Hin. on_each_path req st; rewrite Hev in Hin |- *.
  - no_such_event Hin.
  - no_such_event Hin.
  - split; [|done].
    rewrite <- (Hraise (warning c (logger (view st)) m None w2)).
    by rewrite Hs.
  - split; [|done]. erewrite <- Hraise. by rewrite Hs.
Qed.

(** X4: a warning with an exception attached is logged exactly for a
    [PolicyException] that [evaluate] raised; it goes to the logger of the
    view and its text is the failure text with the template in it. *)
Theorem failure_logged_iff req st (lg : Logger) (msg : pyval) e :
  EvWarning lg msg (Some e) ∈ events_of c globals builtins req st
  ↔ lg = logger (view st) ∧
    isinstance e PolicyException = true ∧
    ∃ m text w2,
      load_global globals builtins "message" = inr m ∧
      format_value m = inr text ∧
      evaluate c (new_PolicyEvaluator c "deny" (world st)).2
        (deny_template text) (new_PolicyEvaluator c "deny" (world st)).1
      = (w2, inl e) ∧
      msg = VStr (failure_text (deny_template text)).
Proof.
  split.
  - intros Hin. on_each_path req st; rewrite Hev in Hin.
    + no_such_event Hin.
    + no_such_event Hin.
    + no_such_event Hin.
    + destruct Hrun as (Hl & Hf & He).
      repeat (apply elem_of_cons in Hin as [Hin|Hin]; [try discriminate Hin|]);
        try (by apply elem_of_nil in Hin).
      injection Hin as -> -> ->. eauto 10.
  - intros (-> & Hi' & m & text & w2 & Hl & Hf & He & ->).
    on_each_path req st; rewrite Hev.
    + destruct Hfail as [Hl' | (m' & Hl' & Hf')]; congruence.
    + destruct Hrun as (Hl' & Hf' & He').
      assert (m0 = m) as -> by congruence.
      assert (text0 = text) as -> by congruence.
      congruence.
    + destruct Hrun as (Hl' & Hf' & He').
      assert (m0 = m) as -> by congruence.
      assert (text0 = text) as -> by congruence.
      congruence.
    + destruct Hrun as (Hl' & Hf' & He').
      assert (m0 = m) as -> by congruence.
      assert (text0 = text) as -> by congruence.
      assert (e0 = e) as -> by congruence.
      do 2 apply list_elem_of_further. apply list_elem_of_here.
Qed.

(** X6: the message is logged, as a warning without an exception,
    exactly in the calls that go on to [stage_invalid]; what is logged is
    the object that [message] names, on the logger of the view. *)
Theorem message_logged_iff req st (lg : Logger) (msg : pyval) :
  EvWarning lg msg None ∈ events_of c globals builtins req st
  ↔ lg = logger (view st) ∧
    load_global globals builtins "message" = inr msg ∧
    EvStageInvalid (executor (view st))
      ∈ events_of c globals builtins req st.
Proof.
  split.
  - intros Hin. on_each_path req st; rewrite Hev in Hin |- *.
    + no_such_event Hin.
    + no_such_event Hin.
    + destruct Hrun as (Hl & Hf & He).
      repeat (apply elem_of_cons in Hin as [Hin|Hin]; [try discriminate Hin|]);
        try (by apply elem_of_nil in Hin).
      injection Hin as -> ->. repeat (split; [done|]).
      do 3 apply list_elem_of_further. apply list_elem_of_here.
    + destruct Hrun as (Hl & Hf & He).
      repeat (apply elem_of_cons in Hin as [Hin|Hin]; [try discriminate Hin|]);
        try (by apply elem_of_nil in Hin).
      injection Hin as -> ->. repeat (split; [done|]).
      do 4 apply list_elem_of_further. apply list_elem_of_here.
  - intros (-> & Hl & Hin). on_each_path req st; rewrite Hev in Hin |- *.
    + no_such_event Hin.
    + no_such_event Hin.
    + destruct Hrun as (Hl' & _).
      assert (m = msg) as -> by congruence.
      do 2 apply list_elem_of_further. apply list_elem_of_here.
    + destruct Hrun as (Hl' & _).
      assert (m = msg) as -> by congruence.
      do 3 apply list_elem_of_further. apply list_elem_of_here.
Qed.

End EventProperties.

(** ** The further properties at sample runs *)

(** X9 at two equal templates. *)
Lemma deny_template_inj_witness :
  deny_template "Access denied" = deny_template "Access denied" ∧
  "Access denied" = "Access denied".
Proof.
  split; [reflexivity|].
  apply (deny_template_inj "Access denied" "Access denied"). reflexivity.
Defined.

(** X7 at the message of the sample runs. *)
Lemma literal_message_keeps_structure_witness :
  literal_text "Access denied" = true ∧
  skeleton (deny_template "Access denied")
  = "ak_message(" +:+ dq +:+ dq +:+ ");return False".
Proof.
  split; [reflexivity|].
  apply (literal_message_keeps_structure "Access denied"). reflexivity.
Defined.

(** X10 at a message that is a path with a backslash at its end. *)
Lemma trailing_backslash_swallows_template_witness :
  plain_text "C:" = true ∧
  skeleton (deny_template ("C:" +:+ String backslash ""))
  = "ak_message(" +:+ dq.
Proof.
  split; [reflexivity|].
  apply (trailing_backslash_swallows_template "C:"). reflexivity.
Defined.

(** X3 at an executor that raises a [PolicyException]. *)
Lemma stage_invalid_exception_propagates_witness :
  (∀ w, (stage_invalid (collab_executor_raises (inr VNone) policy_exception)
           (executor (view start)) w).2 = inl policy_exception) ∧
  EvStageInvalid (executor (view start))
    ∈ events_of (collab_executor_raises (inr VNone) policy_exception)
        (globals_with_message denied) python_builtins "GET /flow" start ∧
  (dispatch (collab_executor_raises (inr VNone) policy_exception)
     (globals_with_message denied) python_builtins "GET /flow" start).2
  = inl policy_exception ∧
  last (events_of (collab_executor_raises (inr VNone) policy_exception)
          (globals_with_message denied) python_builtins "GET /flow" start)
  = Some (EvStageInvalid (executor (view start))).
Proof.
  assert (EvStageInvalid (executor (view start))
            ∈ events_of (collab_executor_raises (inr VNone) policy_exception)
                (globals_with_message denied) python_builtins "GET /flow"
                start) as Hin.
  { vm_compute. do 3 apply list_elem_of_further. apply list_elem_of_here. }
  split; [by intros w|]. split; [exact Hin|].
  apply (stage_invalid_exception_propagates
           (collab_executor_raises (inr VNone) policy_exception)
           (globals_with_message denied) python_builtins "GET /flow" start
           policy_exception (λ w, eq_refl) Hin).
Defined.
